(** * The redirect signal codec of [client/components/redirect.ts]

    A shallow embedding of the module that encodes a redirect request
    (destination, navigation mode, permanence) into the [digest] string of
    a thrown [Error], and of the functions that recognise and decode such a
    value when it is caught. *)

From Stdlib Require Import Ascii String.
From stdpp Require Import base option list strings gmap.

Open Scope string_scope.

(** ** JavaScript values

    The functions of the module accept [any]: the caught value may be
    [undefined], [null], a primitive or an object.  An object is the name of
    its class and the table of its own data properties.  None of the
    prototypes involved ([Object], [Error], [TypeError]) has a [digest].
    Objects on which a read runs code (accessor properties, proxies) are
    not of this type: they are the [Exotic] inputs of [caught].  Numbers
    are only ever status codes, so integers stand for them.  The characters
    of a string stand for its code units; nothing below depends on their
    range. *)

#[warnings="-register-all"]
Inductive value : Type :=
  | VUndefined
  | VNull
  | VBool (b : bool)
  | VNumber (n : Z)
  | VString (s : string)
  | VObject (class : string) (props : gmap string value).

(** [typeof v] *)
Definition typeof (v : value) : string :=
  match v with
  | VUndefined => "undefined"
  | VNull => "object"
  | VBool _ => "boolean"
  | VNumber _ => "number"
  | VString _ => "string"
  | VObject _ _ => "object"
  end.

(** [v === 'lit']: [v] is a string, and that string. *)
Definition equals_literal (v : value) (lit : string) : bool :=
  match v with
  | VString s => String.eqb s lit
  | _ => false
  end.

(** ** Completions

    A call either returns or throws a value. *)

Inductive result (A : Type) : Type :=
  | Return (a : A)
  | Throw (e : value).
Arguments Return {A} a.
Arguments Throw {A} e.

#[global] Instance result_ret : MRet result := @Return.
#[global] Instance result_bind : MBind result := fun A B f m =>
  match m with
  | Return a => f a
  | Throw e => Throw e
  end.

(** [new Error(message)] and [new TypeError(message)] *)
Definition new_Error (message : string) : value :=
  VObject "Error" {[ "message" := VString message ]}.

Definition new_TypeError (message : string) : value :=
  VObject "TypeError" {[ "message" := VString message ]}.

(** [o.key = v] on an object; the module only assigns to an [Error] that it
    has just created, and an assignment to a primitive is dropped. *)
Definition set_prop (o : value) (key : string) (v : value) : value :=
  match o with
  | VObject class props => VObject class (<[key := v]> props)
  | _ => o
  end.

(** [o?.key]: [undefined] for [undefined] and [null], for a primitive (whose
    wrapper has no such property) and for an object without the property. *)
Definition opt_get (o : value) (key : string) : value :=
  match o with
  | VObject _ props => default VUndefined (props !! key)
  | _ => VUndefined
  end.

(** [o.key]: as [o?.key], but a [TypeError] on [undefined] and [null]. *)
Definition get_prop (o : value) (key : string) : result value :=
  match o with
  | VUndefined | VNull =>
      Throw (new_TypeError "Cannot read properties of undefined or null")
  | _ => Return (opt_get o key)
  end.

(** ** [String.prototype.split] with a one-character separator

    [split_all sep s] is [s.split(sep)]: the pieces of [s] between the
    occurrences of [sep]; the list is never empty. *)
Fixpoint split_all (sep : ascii) (s : string) : list string :=
  match s with
  | EmptyString => [EmptyString]
  | String c s' =>
      if Ascii.eqb c sep then EmptyString :: split_all sep s'
      else match split_all sep s' with
           | piece :: pieces => String c piece :: pieces
           | [] => [String c EmptyString]
           end
  end.

(** [s.split(sep, limit)]: the whole string is split and the array is cut
    after [limit] pieces; what follows the [limit]-th piece is dropped. *)
Definition split (s : string) (sep : ascii) (limit : nat) : list string :=
  take limit (split_all sep s).
Arguments split s%_string sep%_char limit%_nat.

(** [v.split(sep, limit)] for a [v] of any type: only a string has the
    method. *)
Definition call_split (v : value) (sep : ascii) (limit : nat)
    : result (list string) :=
  match v with
  | VString s => Return (split s sep limit)
  | _ => Throw (new_TypeError "split is not a function")
  end.
Arguments call_split v sep%_char limit%_nat.

(** [parts[i]], also as a destructuring pattern: [undefined] past the end. *)
Definition element (parts : list string) (i : nat) : value :=
  match parts !! i with
  | Some s => VString s
  | None => VUndefined
  end.

(** [s.includes(c)] *)
Fixpoint includes (s : string) (c : ascii) : bool :=
  match s with
  | EmptyString => false
  | String c' s' => Ascii.eqb c' c || includes s' c
  end.
Arguments includes s%_string c%_char.

(** [Object.hasOwn(o, key)] *)
Definition has_own_property (o : value) (key : string) : bool :=
  match o with
  | VObject _ props =>
      match props !! key with
      | Some _ => true
      | None => false
      end
  | _ => false
  end.

(** ** The module *)

Definition REDIRECT_ERROR_CODE : string := "NEXT_REDIRECT".

Inductive RedirectType : Type := push | replace.

(** The string that is the value of an enum member. *)
Definition RedirectType_value (t : RedirectType) : string :=
  match t with
  | push => "push"
  | replace => "replace"
  end.

(** A boolean inside a template literal. *)
Definition bool_to_string (b : bool) : string :=
  if b then "true" else "false".

(** The part of the request store that the module reads. *)
Record RequestStore : Type := { mutableCookies : value }.

Section Construct.

(** [requestAsyncStorage.getStore()]: the store of the request in whose
    scope the call runs, [None] outside of any request. *)
Variable getStore : option RequestStore.

Definition getRedirectError (url : string) (type : RedirectType)
    (permanent : option bool) : value :=
  let permanent := default false permanent in
  let error := new_Error REDIRECT_ERROR_CODE in
  let error :=
    set_prop error "digest"
      (VString (REDIRECT_ERROR_CODE +:+ ";" +:+ RedirectType_value type
                  +:+ ";" +:+ url +:+ ";" +:+ bool_to_string permanent)) in
  let requestStore := getStore in
  match requestStore with
  | Some requestStore =>
      set_prop error "mutableCookies" (mutableCookies requestStore)
  | None => error
  end.

(** The return type [never] is the empty type: the only completion left
    is a throw. *)
Definition redirect (url : string) (type : option RedirectType)
    : result Empty_set :=
  let type := default replace type in
  Throw (getRedirectError url type (Some false)).

Definition permanentRedirect (url : string) (type : option RedirectType)
    : result Empty_set :=
  let type := default replace type in
  Throw (getRedirectError url type (Some true)).

End Construct.

Definition isRedirectError (error : value) : result bool :=
  if negb (String.eqb (typeof (opt_get error "digest")) "string")
  then Return false
  else
    digest ← get_prop error "digest";
    parts ← call_split digest ";" 4;
    let errorCode := element parts 0 in
    let type := element parts 1 in
    let destination := element parts 2 in
    let permanent := element parts 3 in
    Return (equals_literal errorCode REDIRECT_ERROR_CODE
            && (equals_literal type "replace" || equals_literal type "push")
            && String.eqb (typeof destination) "string"
            && (equals_literal permanent "true"
                || equals_literal permanent "false")).

Definition getURLFromRedirectError (error : value) : result value :=
  recognized ← isRedirectError error;
  if negb recognized then Return VNull
  else
    digest ← get_prop error "digest";
    parts ← call_split digest ";" 3;
    Return (element parts 2).

Definition getRedirectTypeFromError (error : value) : result value :=
  recognized ← isRedirectError error;
  if negb recognized then Throw (new_Error "Not a redirect error")
  else
    digest ← get_prop error "digest";
    parts ← call_split digest ";" 2;
    Return (element parts 1).

Definition getRedirectStatusCodeFromError (error : value) : result Z :=
  recognized ← isRedirectError error;
  if negb recognized then Throw (new_Error "Not a redirect error")
  else
    digest ← get_prop error "digest";
    parts ← call_split digest ";" 4;
    Return (if equals_literal (element parts 3) "true" then 308 else 307)%Z.

(** ** Caught values that run code when they are read

    [isRedirectError] is called on whatever a [catch] received.  Besides
    the plain values above, that can be an object on which reading a
    property runs code: an accessor property, or a proxy.  For such an
    object [get key n] is the completion of the read number [n] (from 0) of
    the property [key] during the call; the reads of one property may
    complete differently. *)
Inductive caught : Type :=
  | Plain (v : value)
  | Exotic (get : string -> nat -> result value).

(** [error?.key] as the read number [n]. *)
Definition opt_read (error : caught) (key : string) (n : nat) : result value :=
  match error with
  | Plain v => Return (opt_get v key)
  | Exotic get => get key n
  end.

(** [error.key] as the read number [n]. *)
Definition read_prop (error : caught) (key : string) (n : nat) : result value :=
  match error with
  | Plain v => get_prop v key
  | Exotic get => get key n
  end.

(** [isRedirectError] on any caught value: the digest is read once for the
    [typeof] test and once more for the [split]. *)
Definition isRedirectError_caught (error : caught) : result bool :=
  guard ← opt_read error "digest" 0;
  if negb (String.eqb (typeof guard) "string")
  then Return false
  else
    digest ← read_prop error "digest" 1;
    parts ← call_split digest ";" 4;
    let errorCode := element parts 0 in
    let type := element parts 1 in
    let destination := element parts 2 in
    let permanent := element parts 3 in
    Return (equals_literal errorCode REDIRECT_ERROR_CODE
            && (equals_literal type "replace" || equals_literal type "push")
            && String.eqb (typeof destination) "string"
            && (equals_literal permanent "true"
                || equals_literal permanent "false")).

(** An object whose [digest] is an accessor property with a getter that
    throws [e]; it has no other property. *)
Definition throwing_digest (e : value) : caught :=
  Exotic (fun key _ =>
            if String.eqb key "digest" then Throw e else Return VUndefined).

(** A proxy that has been revoked: every read is a [TypeError]. *)
Definition revoked_proxy : caught :=
  Exotic (fun _ _ =>
            Throw (new_TypeError
                     "Cannot perform 'get' on a proxy that has been revoked")).

(** ** Vocabulary of the statements *)

(** The test that [isRedirectError] makes on the pieces of the digest. *)
Definition valid_parts (parts : list string) : bool :=
  equals_literal (element parts 0) REDIRECT_ERROR_CODE
  && (equals_literal (element parts 1) "replace"
      || equals_literal (element parts 1) "push")
  && String.eqb (typeof (element parts 2)) "string"
  && (equals_literal (element parts 3) "true"
      || equals_literal (element parts 3) "false").

(** The digest that [getRedirectError] writes, followed by [tail]. *)
Definition encoded (type : RedirectType) (url : string) (permanent : bool)
    (tail : string) : string :=
  REDIRECT_ERROR_CODE +:+ ";" +:+ RedirectType_value type
    +:+ ";" +:+ url +:+ ";" +:+ bool_to_string permanent +:+ tail.

(** A tail is nothing, or a separator and more. *)
Inductive tail_ok : string -> Prop :=
  | tail_empty : tail_ok ""
  | tail_more (extra : string) : tail_ok (String ";" extra).

(** The number of occurrences of [c] in [s]. *)
Fixpoint occurrences (s : string) (c : ascii) : nat :=
  match s with
  | EmptyString => 0
  | String c' s' => (if Ascii.eqb c' c then 1 else 0) + occurrences s' c
  end.
Arguments occurrences s%_string c%_char.

(** * Properties *)

(** ** Splitting *)

Section Split.

Variable sep : ascii.

Lemma split_all_nonempty (s : string) : split_all sep s <> [].
Proof.
  destruct s as [|c s]; simpl; [done|].
  destruct (Ascii.eqb c sep); [done|].
  by destruct (split_all sep s).
Qed.

(** A separator between two strings separates their pieces. *)
Lemma split_all_app (s1 s2 : string) :
  split_all sep (s1 +:+ String sep s2)
  = (split_all sep s1 ++ split_all sep s2)%list.
Proof.
  induction s1 as [|c s1 IH]; simpl.
  - by rewrite Ascii.eqb_refl.
  - rewrite IH. destruct (Ascii.eqb c sep); [done|].
    pose proof (split_all_nonempty s1) as Hne.
    by destruct (split_all sep s1).
Qed.

(** A string without the separator is its own single piece. *)
Lemma split_all_free (s : string) :
  includes s sep = false -> split_all sep s = [s].
Proof.
  induction s as [|c s IH]; simpl; [done|].
  intros [Hc Hs]%orb_false_iff. rewrite Hc, (IH Hs). done.
Qed.

(** No piece contains the separator. *)
Lemma split_all_pieces_free (s piece : string) :
  piece ∈ split_all sep s -> includes piece sep = false.
Proof.
  revert piece. induction s as [|c s IH]; simpl; intros piece.
  - by intros ->%list_elem_of_singleton.
  - destruct (Ascii.eqb c sep) eqn:Hc.
    + intros [->|Hin]%elem_of_cons; [done|]. by apply IH.
    + destruct (split_all sep s) as [|h t].
      * intros ->%list_elem_of_singleton. simpl. by rewrite Hc.
      * intros [->|Hin]%elem_of_cons.
        -- simpl. rewrite Hc. apply IH. by left.
        -- apply IH. by right.
Qed.

(** Joining the pieces with the separator gives the string back:
    [s.split(sep).join(sep) === s]. *)
Lemma split_all_join (s : string) :
  String.concat (String sep EmptyString) (split_all sep s) = s.
Proof.
  induction s as [|c s IH]; simpl; [done|].
  destruct (Ascii.eqb c sep) eqn:Hc.
  - apply Ascii.eqb_eq in Hc as ->.
    pose proof (split_all_nonempty s) as Hne.
    destruct (split_all sep s) as [|h t]; [done|].
    simpl in *. by rewrite IH.
  - pose proof (split_all_nonempty s) as Hne.
    destruct (split_all sep s) as [|h t]; [done|].
    destruct t; simpl in *; by rewrite <- IH.
Qed.

End Split.

(** ** Reading the digest *)

Lemma typeof_string (v : value) :
  String.eqb (typeof v) "string" = true <-> exists s, v = VString s.
Proof.
  split.
  - destruct v; simpl; try discriminate. eauto.
  - by intros [s ->].
Qed.

Lemma opt_get_string_get (error : value) (key s : string) :
  opt_get error key = VString s -> get_prop error key = Return (VString s).
Proof. destruct error; simpl; try discriminate. by intros ->. Qed.

Lemma isRedirectError_digest (error : value) (digest : string) :
  opt_get error "digest" = VString digest ->
  isRedirectError error = Return (valid_parts (split digest ";" 4)).
Proof.
  intros Hd. unfold isRedirectError.
  rewrite (opt_get_string_get _ _ _ Hd), Hd. reflexivity.
Qed.

Lemma isRedirectError_no_digest (error : value) :
  String.eqb (typeof (opt_get error "digest")) "string" = false ->
  isRedirectError error = Return false.
Proof. intros Hd. unfold isRedirectError. by rewrite Hd. Qed.

(** A recognised value has a string for a digest, with valid pieces. *)
Lemma isRedirectError_true (error : value) :
  isRedirectError error = Return true ->
  exists digest,
    opt_get error "digest" = VString digest
    /\ valid_parts (split digest ";" 4) = true.
Proof.
  intros Hrec.
  destruct (String.eqb (typeof (opt_get error "digest")) "string") eqn:Hd.
  - apply typeof_string in Hd as [digest Hd]. exists digest. split; [done|].
    rewrite (isRedirectError_digest _ _ Hd) in Hrec. congruence.
  - rewrite (isRedirectError_no_digest _ Hd) in Hrec. discriminate.
Qed.

(** What the three readers return on a value with a string digest. *)
Section Readers.

Variables (error : value) (digest : string).
Hypothesis Hdigest : opt_get error "digest" = VString digest.

Lemma getURLFromRedirectError_digest :
  getURLFromRedirectError error =
    if valid_parts (split digest ";" 4)
    then Return (element (split digest ";" 3) 2)
    else Return VNull.
Proof.
  unfold getURLFromRedirectError.
  rewrite (isRedirectError_digest _ _ Hdigest). simpl.
  rewrite (opt_get_string_get _ _ _ Hdigest).
  by destruct (valid_parts _).
Qed.

Lemma getRedirectTypeFromError_digest :
  getRedirectTypeFromError error =
    if valid_parts (split digest ";" 4)
    then Return (element (split digest ";" 2) 1)
    else Throw (new_Error "Not a redirect error").
Proof.
  unfold getRedirectTypeFromError.
  rewrite (isRedirectError_digest _ _ Hdigest). simpl.
  rewrite (opt_get_string_get _ _ _ Hdigest).
  by destruct (valid_parts _).
Qed.

Lemma getRedirectStatusCodeFromError_digest :
  getRedirectStatusCodeFromError error =
    if valid_parts (split digest ";" 4)
    then Return (if equals_literal (element (split digest ";" 4) 3) "true"
                 then 308 else 307)%Z
    else Throw (new_Error "Not a redirect error").
Proof.
  unfold getRedirectStatusCodeFromError.
  rewrite (isRedirectError_digest _ _ Hdigest). simpl.
  rewrite (opt_get_string_get _ _ _ Hdigest).
  by destruct (valid_parts _).
Qed.

End Readers.

(** ** The encoded form *)

Lemma append_empty (s : string) : s +:+ "" = s.
Proof.
  induction s as [|c s IH]; [done|].
  change (String c (s +:+ "") = String c s). by rewrite IH.
Qed.

Lemma getRedirectError_digest (getStore : option RequestStore)
    (url : string) (type : RedirectType) (permanent : option bool) :
  opt_get (getRedirectError getStore url type permanent) "digest"
  = VString (encoded type url (default false permanent) "").
Proof.
  unfold encoded. rewrite append_empty.
  unfold getRedirectError. destruct getStore as [requestStore|]; simpl.
  - by rewrite lookup_insert_ne, lookup_insert_eq.
  - by rewrite lookup_insert_eq.
Qed.

Lemma getRedirectError_message (getStore : option RequestStore)
    (url : string) (type : RedirectType) (permanent : option bool) :
  opt_get (getRedirectError getStore url type permanent) "message"
  = VString REDIRECT_ERROR_CODE.
Proof.
  unfold getRedirectError. destruct getStore as [requestStore|]; simpl.
  - by rewrite !lookup_insert_ne, lookup_singleton_eq.
  - by rewrite lookup_insert_ne, lookup_singleton_eq.
Qed.

(** The pieces of an encoded digest: the tag, the type, the pieces of the
    URL, and the pieces of what follows the URL. *)
Lemma split_all_encoded (type : RedirectType) (url : string)
    (permanent : bool) (tail : string) :
  split_all ";" (encoded type url permanent tail)
  = (REDIRECT_ERROR_CODE :: RedirectType_value type
       :: split_all ";" url
       ++ split_all ";" (bool_to_string permanent +:+ tail))%list.
Proof.
  unfold encoded.
  repeat match goal with
         | |- context [ ";" +:+ ?x ] => change (";" +:+ x) with (String ";" x)
         end.
  rewrite !split_all_app.
  rewrite (split_all_free ";" REDIRECT_ERROR_CODE) by reflexivity.
  rewrite (split_all_free ";" (RedirectType_value type)) by (by destruct type).
  reflexivity.
Qed.

Lemma split_all_permanent_tail (permanent : bool) (tail : string) :
  tail_ok tail ->
  exists rest,
    split_all ";" (bool_to_string permanent +:+ tail)
    = bool_to_string permanent :: rest.
Proof.
  intros [|extra].
  - exists []. rewrite append_empty. apply split_all_free. by destruct permanent.
  - exists (split_all ";" extra). rewrite split_all_app.
    rewrite split_all_free by (by destruct permanent). reflexivity.
Qed.

(** A URL without the separator is the third of the pieces. *)
Lemma split_all_encoded_free (type : RedirectType) (url : string)
    (permanent : bool) (tail : string) :
  includes url ";" = false -> tail_ok tail ->
  exists rest,
    split_all ";" (encoded type url permanent tail)
    = REDIRECT_ERROR_CODE :: RedirectType_value type :: url
        :: bool_to_string permanent :: rest.
Proof.
  intros Hurl Htail.
  destruct (split_all_permanent_tail permanent tail Htail) as [rest Hrest].
  exists rest. rewrite split_all_encoded, Hrest, (split_all_free _ _ Hurl).
  reflexivity.
Qed.

(** ** Decoding a digest whose URL has no separator *)

Lemma valid_parts_encoded (type : RedirectType) (url : string)
    (permanent : bool) (rest : list string) :
  valid_parts (take 4 (REDIRECT_ERROR_CODE :: RedirectType_value type :: url
                         :: bool_to_string permanent :: rest)) = true.
Proof. by destruct type, permanent. Qed.

Section Decode.

Variables (error : value) (type : RedirectType) (url : string).
Variables (permanent : bool) (tail : string).
Hypothesis Hurl : includes url ";" = false.
Hypothesis Htail : tail_ok tail.
Hypothesis Hdigest :
  opt_get error "digest" = VString (encoded type url permanent tail).

Lemma decode_recognized : isRedirectError error = Return true.
Proof.
  destruct (split_all_encoded_free type url permanent tail Hurl Htail)
    as [rest Hs].
  rewrite (isRedirectError_digest _ _ Hdigest). unfold split. rewrite Hs.
  by rewrite valid_parts_encoded.
Qed.

Lemma decode_url : getURLFromRedirectError error = Return (VString url).
Proof.
  destruct (split_all_encoded_free type url permanent tail Hurl Htail)
    as [rest Hs].
  rewrite (getURLFromRedirectError_digest _ _ Hdigest). unfold split.
  rewrite Hs. by rewrite valid_parts_encoded.
Qed.

Lemma decode_type :
  getRedirectTypeFromError error
  = Return (VString (RedirectType_value type)).
Proof.
  destruct (split_all_encoded_free type url permanent tail Hurl Htail)
    as [rest Hs].
  rewrite (getRedirectTypeFromError_digest _ _ Hdigest). unfold split.
  rewrite Hs. by rewrite valid_parts_encoded.
Qed.

Lemma decode_status :
  getRedirectStatusCodeFromError error
  = Return (if permanent then 308 else 307)%Z.
Proof.
  destruct (split_all_encoded_free type url permanent tail Hurl Htail)
    as [rest Hs].
  rewrite (getRedirectStatusCodeFromError_digest _ _ Hdigest). unfold split.
  rewrite Hs, valid_parts_encoded. by destruct permanent.
Qed.

End Decode.

(** The round trip through [getRedirectError] for a URL without [;]. *)
Lemma round_trip_free (getStore : option RequestStore) (url : string)
    (type : RedirectType) (permanent : option bool) :
  includes url ";" = false ->
  let error := getRedirectError getStore url type permanent in
  isRedirectError error = Return true
  /\ getURLFromRedirectError error = Return (VString url)
  /\ getRedirectTypeFromError error
     = Return (VString (RedirectType_value type))
  /\ getRedirectStatusCodeFromError error
     = Return (if default false permanent then 308 else 307)%Z.
Proof.
  intros Hurl error.
  pose proof (getRedirectError_digest getStore url type permanent) as Hd.
  pose proof tail_empty as Ht.
  split_and!.
  - by eapply decode_recognized.
  - by eapply decode_url.
  - by eapply decode_type.
  - by eapply decode_status.
Qed.

(** With a [;] in the URL the fourth piece of the digest is the second
    piece of the URL: the value is recognised only when that piece happens
    to read [true] or [false]. *)
Lemma isRedirectError_getRedirectError (getStore : option RequestStore)
    (url : string) (type : RedirectType) (permanent : option bool) :
  isRedirectError (getRedirectError getStore url type permanent)
  = Return match split_all ";" url with
           | [_] => true
           | _ :: second :: _ =>
               String.eqb second "true" || String.eqb second "false"
           | [] => false
           end.
Proof.
  rewrite (isRedirectError_digest _ _ (getRedirectError_digest _ _ _ _)).
  unfold split. rewrite split_all_encoded, append_empty.
  rewrite (split_all_free ";" (bool_to_string _))
    by (by destruct (default false permanent)).
  pose proof (split_all_nonempty ";" url) as Hne.
  destruct (split_all ";" url) as [|first [|second others]]; [done|..].
  - by destruct type, (default false permanent).
  - by destruct type.
Qed.

(** Conversely, the digest of a recognised value is an encoded digest with
    a URL free of [;], possibly followed by more. *)
Lemma isRedirectError_shape (error : value) :
  isRedirectError error = Return true ->
  exists type url permanent tail,
    includes url ";" = false /\ tail_ok tail
    /\ opt_get error "digest" = VString (encoded type url permanent tail).
Proof.
  intros (digest & Hd & Hvalid)%isRedirectError_true.
  unfold split in Hvalid.
  pose proof (split_all_join ";" digest) as Hjoin.
  pose proof (split_all_pieces_free ";" digest) as Hfree.
  destruct (split_all ";" digest) as [|code [|ty [|url [|perm rest]]]];
    try (by repeat (apply andb_true_iff in Hvalid as [Hvalid ?])).
  unfold valid_parts, element in Hvalid. simpl in Hvalid.
  repeat (apply andb_true_iff in Hvalid as [Hvalid ?]).
  apply String.eqb_eq in Hvalid as ->.
  assert (exists type, ty = RedirectType_value type) as [type ->].
  { match goal with H : String.eqb ty _ || _ = true |- _ =>
      apply orb_true_iff in H as [->%String.eqb_eq| ->%String.eqb_eq] end;
      [by exists replace | by exists push]. }
  assert (exists permanent, perm = bool_to_string permanent)
    as [permanent ->].
  { match goal with H : String.eqb perm _ || _ = true |- _ =>
      apply orb_true_iff in H as [->%String.eqb_eq| ->%String.eqb_eq] end;
      [by exists true | by exists false]. }
  exists type, url, permanent.
  exists (match rest with
          | [] => ""
          | _ => String ";" (String.concat ";" rest)
          end).
  split_and!.
  - apply Hfree. set_solver.
  - destruct rest; constructor.
  - rewrite Hd, <- Hjoin. unfold encoded. destruct rest.
    + by rewrite append_empty.
    + reflexivity.
Qed.

(** ** Recognition, field by field *)

Lemma element_literal (parts : list string) (i : nat) (lit : string) :
  equals_literal (element parts i) lit = true <-> parts !! i = Some lit.
Proof.
  unfold element. destruct (parts !! i) as [s|]; simpl.
  - rewrite String.eqb_eq. split; congruence.
  - split; discriminate.
Qed.

Lemma element_string (parts : list string) (i : nat) :
  String.eqb (typeof (element parts i)) "string" = true
  <-> is_Some (parts !! i).
Proof.
  unfold element. destruct (parts !! i) as [s|]; simpl.
  - split; eauto.
  - split; [discriminate|]. by intros [? ?].
Qed.

Lemma valid_parts_fields (fields : list string) :
  valid_parts fields = true <->
  fields !! 0%nat = Some REDIRECT_ERROR_CODE
  /\ (fields !! 1%nat = Some "push" \/ fields !! 1%nat = Some "replace")
  /\ is_Some (fields !! 2%nat)
  /\ (fields !! 3%nat = Some "true" \/ fields !! 3%nat = Some "false").
Proof.
  unfold valid_parts.
  rewrite !andb_true_iff, !orb_true_iff, !element_literal, element_string.
  tauto.
Qed.

(** ** The claims *)

(** C1 (defect in the code).  The round trip through the digest is lost for
    a destination that contains [;]: [split] cuts the array of all pieces
    after the fourth, so the fourth piece is the second piece of the
    destination and not the permanence.  The signal built for ["a;b;c"] is
    not recognised, its URL reads [null] and the other two readers throw;
    the signal built for ["a;true"] with permanence [false] is recognised,
    but decodes to the destination ["a"] and the status 308. *)
Theorem round_trip_lost_on_delimiter (getStore : option RequestStore) :
  let lost := getRedirectError getStore "a;b;c" replace (Some false) in
  let wrong := getRedirectError getStore "a;true" push (Some false) in
  (isRedirectError lost = Return false
   /\ getURLFromRedirectError lost = Return VNull
   /\ getRedirectTypeFromError lost = Throw (new_Error "Not a redirect error")
   /\ getRedirectStatusCodeFromError lost
      = Throw (new_Error "Not a redirect error"))
  /\ (isRedirectError wrong = Return true
      /\ getURLFromRedirectError wrong = Return (VString "a")
      /\ getRedirectTypeFromError wrong = Return (VString "push")
      /\ getRedirectStatusCodeFromError wrong = Return 308%Z).
Proof.
  intros lost wrong.
  pose proof (getRedirectError_digest getStore "a;b;c" replace (Some false))
    as Hlost.
  pose proof (getRedirectError_digest getStore "a;true" push (Some false))
    as Hwrong.
  fold lost in Hlost. fold wrong in Hwrong.
  rewrite (isRedirectError_digest _ _ Hlost),
    (getURLFromRedirectError_digest _ _ Hlost),
    (getRedirectTypeFromError_digest _ _ Hlost),
    (getRedirectStatusCodeFromError_digest _ _ Hlost),
    (isRedirectError_digest _ _ Hwrong),
    (getURLFromRedirectError_digest _ _ Hwrong),
    (getRedirectTypeFromError_digest _ _ Hwrong),
    (getRedirectStatusCodeFromError_digest _ _ Hwrong).
  by vm_compute.
Qed.

(** C2 (defect in the code).  [isRedirectError] returns [false] on the
    signal that [getRedirectError] builds for the destination ["/a;b"]. *)
Theorem constructed_signal_not_recognized (getStore : option RequestStore) :
  isRedirectError (getRedirectError getStore "/a;b" push (Some true))
  = Return false.
Proof. rewrite isRedirectError_getRedirectError. reflexivity. Qed.

(** C3.  [isRedirectError] returns a boolean, and it is [true] exactly when
    the digest of the candidate is a string whose split at [;], cut after
    four fields, has the tag as its first field, [push] or [replace] as its
    second, a third field, and [true] or [false] as its fourth.  It is
    [false] for [undefined], for an object without a digest, for a digest
    that is the tag alone, for the navigation mode [forward] and for the
    permanence [yes]. *)
Theorem isRedirectError_exactly :
  (forall error : value,
     exists recognized : bool,
       isRedirectError error = Return recognized
       /\ (recognized = true <->
           exists digest : string,
             opt_get error "digest" = VString digest
             /\ let fields := split digest ";" 4 in
                fields !! 0%nat = Some REDIRECT_ERROR_CODE
                /\ (fields !! 1%nat = Some "push"
                    \/ fields !! 1%nat = Some "replace")
                /\ is_Some (fields !! 2%nat)
                /\ (fields !! 3%nat = Some "true"
                    \/ fields !! 3%nat = Some "false")))
  /\ isRedirectError VUndefined = Return false
  /\ isRedirectError (VObject "Object" ∅) = Return false
  /\ isRedirectError
       (set_prop (new_Error "boom") "digest" (VString REDIRECT_ERROR_CODE))
     = Return false
  /\ isRedirectError
       (set_prop (new_Error "boom") "digest"
          (VString "NEXT_REDIRECT;forward;/x;false"))
     = Return false
  /\ isRedirectError
       (set_prop (new_Error "boom") "digest"
          (VString "NEXT_REDIRECT;replace;/x;yes"))
     = Return false.
Proof.
  split; [|by vm_compute].
  intros error.
  destruct (String.eqb (typeof (opt_get error "digest")) "string") eqn:Hd.
  - apply typeof_string in Hd as [digest Hd].
    exists (valid_parts (split digest ";" 4)).
    split; [by apply isRedirectError_digest|].
    rewrite valid_parts_fields. split.
    + intros Hfields. by exists digest.
    + intros (digest' & Hd' & Hfields). congruence.
  - exists false. split; [by apply isRedirectError_no_digest|].
    split; [discriminate|].
    intros (digest & Hd' & _). rewrite Hd' in Hd. discriminate.
Qed.

(** On every plain value [isRedirectError] returns a boolean, and that
    boolean is [false] whenever the digest of the value is missing or is
    not a string. *)
Theorem isRedirectError_never_throws (error : value) :
  (forall e : value, isRedirectError error <> Throw e)
  /\ exists recognized : bool,
       isRedirectError error = Return recognized
       /\ ((forall s : string, opt_get error "digest" <> VString s) ->
           recognized = false).
Proof.
  destruct (String.eqb (typeof (opt_get error "digest")) "string") eqn:Hd.
  - apply typeof_string in Hd as [digest Hd].
    rewrite (isRedirectError_digest _ _ Hd). split; [done|].
    eexists. split; [done|]. intros Hno. by destruct (Hno digest).
  - rewrite (isRedirectError_no_digest _ Hd). split; [done|]. by exists false.
Qed.

(** On a plain value the two embeddings of [isRedirectError] agree. *)
Lemma isRedirectError_caught_plain (v : value) :
  isRedirectError_caught (Plain v) = isRedirectError v.
Proof. reflexivity. Qed.




(** The throw-helpers never return, whatever the URL. *)
Lemma redirect_throws (getStore : option RequestStore) (url : string)
    (type : option RedirectType) :
  redirect getStore url type
  = Throw (getRedirectError getStore url (default replace type) (Some false))
  /\ permanentRedirect getStore url type
     = Throw (getRedirectError getStore url (default replace type) (Some true)).
Proof. done. Qed.

(** For a URL without [;] they throw what the claim C5 says. *)
Lemma redirect_free (getStore : option RequestStore) (url : string) :
  includes url ";" = false ->
  (exists thrown,
     redirect getStore url None = Throw thrown
     /\ isRedirectError thrown = Return true
     /\ getRedirectTypeFromError thrown = Return (VString "replace")
     /\ getRedirectStatusCodeFromError thrown = Return 307%Z)
  /\ (exists thrown,
        permanentRedirect getStore url (Some push) = Throw thrown
        /\ getRedirectTypeFromError thrown = Return (VString "push")
        /\ getRedirectStatusCodeFromError thrown = Return 308%Z).
Proof.
  intros Hurl. split; eexists; (split; [reflexivity|]).
  - by destruct (round_trip_free getStore url replace (Some false) Hurl)
      as (? & ? & ? & ?).
  - by destruct (round_trip_free getStore url push (Some true) Hurl)
      as (? & ? & ? & ?).
Qed.

(** C5 (defect in the code, the one of C1).  [redirect] and
    [permanentRedirect] never return, but for a URL that contains [;] the
    value they throw is not what the claim says: after [redirect("/a;b")]
    it is not recognised and both readers throw; after
    [redirect("/a;true")] it is recognised and reads 308 instead of 307;
    after [permanentRedirect("/a;false", push)] it reads 307 instead of
    308. *)
Theorem throw_helpers_lost_on_delimiter (getStore : option RequestStore) :
  (exists thrown,
     redirect getStore "/a;b" None = Throw thrown
     /\ isRedirectError thrown = Return false
     /\ getRedirectTypeFromError thrown
        = Throw (new_Error "Not a redirect error")
     /\ getRedirectStatusCodeFromError thrown
        = Throw (new_Error "Not a redirect error"))
  /\ (exists thrown,
        redirect getStore "/a;true" None = Throw thrown
        /\ isRedirectError thrown = Return true
        /\ getRedirectTypeFromError thrown = Return (VString "replace")
        /\ getRedirectStatusCodeFromError thrown = Return 308%Z)
  /\ (exists thrown,
        permanentRedirect getStore "/a;false" (Some push) = Throw thrown
        /\ getRedirectTypeFromError thrown = Return (VString "push")
        /\ getRedirectStatusCodeFromError thrown = Return 307%Z).
Proof.
  split_and!; eexists; (split; [reflexivity|]); simpl default;
    match goal with
    | |- context [ getRedirectError ?st ?url ?ty ?perm ] =>
        pose proof (getRedirectError_digest st url ty perm) as Hd
    end;
    rewrite ?(isRedirectError_digest _ _ Hd),
      ?(getRedirectTypeFromError_digest _ _ Hd),
      ?(getRedirectStatusCodeFromError_digest _ _ Hd);
    by vm_compute.
Qed.

(** C6.  On a value that [isRedirectError] rejects, [getRedirectTypeFromError]
    and [getRedirectStatusCodeFromError] both throw the error
    [Not a redirect error]. *)
Theorem readers_throw_on_non_signal (error : value) :
  isRedirectError error = Return false ->
  getRedirectTypeFromError error = Throw (new_Error "Not a redirect error")
  /\ getRedirectStatusCodeFromError error
     = Throw (new_Error "Not a redirect error").
Proof.
  intros Hrej. unfold getRedirectTypeFromError, getRedirectStatusCodeFromError.
  by rewrite Hrej.
Qed.

(** The same at [new Error("boom")], which is not a signal. *)
Lemma readers_throw_on_boom :
  isRedirectError (new_Error "boom") = Return false
  /\ getRedirectTypeFromError (new_Error "boom")
     = Throw (new_Error "Not a redirect error")
  /\ getRedirectStatusCodeFromError (new_Error "boom")
     = Throw (new_Error "Not a redirect error").
Proof.
  split; [reflexivity|].
  apply (readers_throw_on_non_signal (new_Error "boom")). reflexivity.
Defined.

(** C7.  The value built by [getRedirectError] has the tag [NEXT_REDIRECT]
    for a message, and for a digest the tag, the navigation mode, the
    destination and [true] or [false] for the permanence ([false] when it
    is left out), in this order, joined by [;]. *)
Theorem getRedirectError_wire_format (getStore : option RequestStore)
    (url : string) (type : RedirectType) (permanent : option bool) :
  let error := getRedirectError getStore url type permanent in
  REDIRECT_ERROR_CODE = "NEXT_REDIRECT"
  /\ opt_get error "message" = VString REDIRECT_ERROR_CODE
  /\ opt_get error "digest"
     = VString (String.concat ";"
                  [REDIRECT_ERROR_CODE; RedirectType_value type; url;
                   bool_to_string (default false permanent)]).
Proof.
  intros error. split_and!; [done|apply getRedirectError_message|].
  subst error. rewrite getRedirectError_digest.
  unfold encoded. by rewrite append_empty.
Qed.

(** C8.  Built outside of any request, the signal has no [mutableCookies]
    property, and the recogniser and the three readers return on it what
    they return on the signal built with a store, which has the property. *)
Theorem no_store_no_cookies (url : string) (type : RedirectType)
    (permanent : option bool) :
  let bare := getRedirectError None url type permanent in
  has_own_property bare "mutableCookies" = false
  /\ forall requestStore : RequestStore,
       let carrying :=
         getRedirectError (Some requestStore) url type permanent in
       has_own_property carrying "mutableCookies" = true
       /\ opt_get carrying "mutableCookies" = mutableCookies requestStore
       /\ isRedirectError bare = isRedirectError carrying
       /\ getURLFromRedirectError bare = getURLFromRedirectError carrying
       /\ getRedirectTypeFromError bare = getRedirectTypeFromError carrying
       /\ getRedirectStatusCodeFromError bare
          = getRedirectStatusCodeFromError carrying.
Proof.
  intros bare. split; [done|]. intros requestStore carrying.
  pose proof (getRedirectError_digest None url type permanent) as Hb.
  pose proof (getRedirectError_digest (Some requestStore) url type permanent)
    as Hc.
  fold bare in Hb. fold carrying in Hc.
  rewrite (isRedirectError_digest _ _ Hb), (isRedirectError_digest _ _ Hc),
    (getURLFromRedirectError_digest _ _ Hb),
    (getURLFromRedirectError_digest _ _ Hc),
    (getRedirectTypeFromError_digest _ _ Hb),
    (getRedirectTypeFromError_digest _ _ Hc),
    (getRedirectStatusCodeFromError_digest _ _ Hb),
    (getRedirectStatusCodeFromError_digest _ _ Hc).
  by split_and!.
Qed.

(** C9.  On a value that [isRedirectError] rejects, [getURLFromRedirectError]
    returns [null] and does not throw, where the other two readers throw. *)
Theorem getURLFromRedirectError_null_on_non_signal (error : value) :
  isRedirectError error = Return false ->
  getURLFromRedirectError error = Return VNull
  /\ (exists e, getRedirectTypeFromError error = Throw e)
  /\ (exists e, getRedirectStatusCodeFromError error = Throw e).
Proof.
  intros Hrej.
  unfold getURLFromRedirectError, getRedirectTypeFromError,
    getRedirectStatusCodeFromError.
  rewrite Hrej. simpl. eauto.
Qed.

(** The same at [new Error("boom")]. *)
Lemma getURLFromRedirectError_null_on_boom :
  isRedirectError (new_Error "boom") = Return false
  /\ getURLFromRedirectError (new_Error "boom") = Return VNull
  /\ (exists e, getRedirectTypeFromError (new_Error "boom") = Throw e)
  /\ (exists e, getRedirectStatusCodeFromError (new_Error "boom") = Throw e).
Proof.
  split; [reflexivity|].
  apply (getURLFromRedirectError_null_on_non_signal (new_Error "boom")).
  reflexivity.
Defined.

(** C10.  Only the first four fields of the digest are looked at: a value
    whose digest is the tag, [push] or [replace], a destination without
    [;], [true] or [false], and then [;] and anything at all, is recognised,
    and the readers return the destination, the navigation mode and the
    status of those fields. *)
Theorem only_first_four_fields (error : value) (type : RedirectType)
    (url : string) (permanent : bool) (extra : string) :
  includes url ";" = false ->
  opt_get error "digest"
  = VString (String.concat ";"
               [REDIRECT_ERROR_CODE; RedirectType_value type; url;
                bool_to_string permanent; extra]) ->
  isRedirectError error = Return true
  /\ getURLFromRedirectError error = Return (VString url)
  /\ getRedirectTypeFromError error
     = Return (VString (RedirectType_value type))
  /\ getRedirectStatusCodeFromError error
     = Return (if permanent then 308 else 307)%Z.
Proof.
  intros Hurl Hd.
  change (opt_get error "digest"
          = VString (encoded type url permanent (String ";" extra))) in Hd.
  pose proof (tail_more extra) as Ht.
  split_and!.
  - by eapply decode_recognized.
  - by eapply decode_url.
  - by eapply decode_type.
  - by eapply decode_status.
Qed.

(** The same at the digest [NEXT_REDIRECT;push;/x;true;later;false;fields]. *)
Lemma only_first_four_fields_example :
  let error :=
    set_prop (new_Error "boom") "digest"
      (VString "NEXT_REDIRECT;push;/x;true;later;false;fields") in
  includes "/x" ";" = false
  /\ opt_get error "digest"
     = VString (String.concat ";"
                  [REDIRECT_ERROR_CODE; RedirectType_value push; "/x";
                   bool_to_string true; "later;false;fields"])
  /\ isRedirectError error = Return true
  /\ getURLFromRedirectError error = Return (VString "/x")
  /\ getRedirectTypeFromError error = Return (VString "push")
  /\ getRedirectStatusCodeFromError error = Return 308%Z.
Proof.
  intros error. split; [reflexivity|]. split; [reflexivity|].
  apply (only_first_four_fields error push "/x" true "later;false;fields");
    reflexivity.
Defined.

(** * Further properties of the codec *)

(** ** More on strings and pieces *)

Lemma append_assoc (s1 s2 s3 : string) :
  (s1 +:+ s2) +:+ s3 = s1 +:+ s2 +:+ s3.
Proof.
  induction s1 as [|c s1 IH]; [done|].
  change (String c ((s1 +:+ s2) +:+ s3) = String c (s1 +:+ s2 +:+ s3)).
  by rewrite IH.
Qed.

(** There is one piece more than there are separators. *)
Lemma split_all_length (sep : ascii) (s : string) :
  length (split_all sep s) = S (occurrences s sep).
Proof.
  induction s as [|c s IH]; simpl; [done|].
  destruct (Ascii.eqb c sep); simpl; [by rewrite IH|].
  destruct (split_all sep s); simpl in *; done.
Qed.

(** A string is its first piece, alone or followed by a separator and the
    rest. *)
Lemma split_all_first (sep : ascii) (s first : string) (rest : list string) :
  split_all sep s = first :: rest ->
  includes first sep = false
  /\ s = first +:+ match rest with
                   | [] => ""
                   | _ => String sep (String.concat (String sep "") rest)
                   end.
Proof.
  intros Hs. split.
  - apply (split_all_pieces_free sep s). rewrite Hs. by left.
  - rewrite <- (split_all_join sep s) at 1. rewrite Hs.
    destruct rest; simpl; [by rewrite append_empty|done].
Qed.

(** The pieces of the digest that [getRedirectError] writes. *)
Lemma split_all_digest (type : RedirectType) (url : string) (permanent : bool) :
  split_all ";" (encoded type url permanent "")
  = (REDIRECT_ERROR_CODE :: RedirectType_value type
       :: split_all ";" url ++ [bool_to_string permanent])%list.
Proof.
  rewrite split_all_encoded, append_empty.
  by rewrite (split_all_free ";" (bool_to_string permanent))
    by (by destruct permanent).
Qed.

(** ** What is recognised, and what the readers return on it *)

(** X1.  The digests that [isRedirectError] accepts are exactly the tag, a
    navigation mode, a destination without [;] and [true] or [false],
    joined by [;], alone or followed by [;] and anything. *)
Theorem recognized_digest_grammar (error : value) :
  isRedirectError error = Return true <->
  exists (type : RedirectType) (url : string) (permanent : bool)
         (tail : string),
    includes url ";" = false
    /\ tail_ok tail
    /\ opt_get error "digest" = VString (encoded type url permanent tail).
Proof.
  split.
  - apply isRedirectError_shape.
  - intros (type & url & permanent & tail & Hurl & Htail & Hd).
    by eapply decode_recognized.
Qed.

(** X2.  On a value that [isRedirectError] accepts no reader throws:
    [getURLFromRedirectError] returns a string without [;],
    [getRedirectTypeFromError] returns [push] or [replace] and
    [getRedirectStatusCodeFromError] returns 307 or 308. *)
Theorem readers_return_on_recognized (error : value) :
  isRedirectError error = Return true ->
  (exists url : string,
     getURLFromRedirectError error = Return (VString url)
     /\ includes url ";" = false)
  /\ (getRedirectTypeFromError error = Return (VString "push")
      \/ getRedirectTypeFromError error = Return (VString "replace"))
  /\ (getRedirectStatusCodeFromError error = Return 307%Z
      \/ getRedirectStatusCodeFromError error = Return 308%Z).
Proof.
  intros (type & url & permanent & tail & Hurl & Htail & Hd)%isRedirectError_shape.
  split_and!.
  - exists url. split; [by eapply decode_url|done].
  - rewrite (decode_type error type url permanent tail Hurl Htail Hd).
    destruct type; auto.
  - rewrite (decode_status error type url permanent tail Hurl Htail Hd).
    destruct permanent; auto.
Qed.

(** The same at a plain object with the digest
    [NEXT_REDIRECT;replace;/home;false]. *)
Lemma readers_return_on_recognized_example :
  let error :=
    VObject "Object" {[ "digest" := VString "NEXT_REDIRECT;replace;/home;false" ]} in
  isRedirectError error = Return true
  /\ (exists url : string,
        getURLFromRedirectError error = Return (VString url)
        /\ includes url ";" = false)
  /\ (getRedirectTypeFromError error = Return (VString "push")
      \/ getRedirectTypeFromError error = Return (VString "replace"))
  /\ (getRedirectStatusCodeFromError error = Return 307%Z
      \/ getRedirectStatusCodeFromError error = Return 308%Z).
Proof.
  intros error. split; [reflexivity|].
  apply (readers_return_on_recognized error). reflexivity.
Defined.

(** X3.  The recogniser and the readers look at the digest and at nothing
    else: on two values with the same [digest] they complete in the same
    way, whatever the class and the other properties of the values. *)
Theorem readers_depend_on_digest_only (error1 error2 : value) :
  opt_get error1 "digest" = opt_get error2 "digest" ->
  isRedirectError error1 = isRedirectError error2
  /\ getURLFromRedirectError error1 = getURLFromRedirectError error2
  /\ getRedirectTypeFromError error1 = getRedirectTypeFromError error2
  /\ getRedirectStatusCodeFromError error1
     = getRedirectStatusCodeFromError error2.
Proof.
  intros Heq.
  destruct (String.eqb (typeof (opt_get error1 "digest")) "string") eqn:Hd1.
  - apply typeof_string in Hd1 as [digest Hd1].
    assert (opt_get error2 "digest" = VString digest) as Hd2 by congruence.
    by rewrite (isRedirectError_digest _ _ Hd1),
      (isRedirectError_digest _ _ Hd2),
      (getURLFromRedirectError_digest _ _ Hd1),
      (getURLFromRedirectError_digest _ _ Hd2),
      (getRedirectTypeFromError_digest _ _ Hd1),
      (getRedirectTypeFromError_digest _ _ Hd2),
      (getRedirectStatusCodeFromError_digest _ _ Hd1),
      (getRedirectStatusCodeFromError_digest _ _ Hd2).
  - assert (String.eqb (typeof (opt_get error2 "digest")) "string" = false)
      as Hd2 by (by rewrite <- Heq).
    unfold getURLFromRedirectError, getRedirectTypeFromError,
      getRedirectStatusCodeFromError.
    by rewrite (isRedirectError_no_digest _ Hd1),
      (isRedirectError_no_digest _ Hd2).
Qed.

(** The same at a signal built inside a request and a plain object that
    has its digest. *)
Lemma readers_depend_on_digest_only_example :
  let error1 :=
    getRedirectError (Some {| mutableCookies := VObject "ResponseCookies" ∅ |})
      "/x" push None in
  let error2 :=
    VObject "Object" {[ "digest" := VString "NEXT_REDIRECT;push;/x;false" ]} in
  opt_get error1 "digest" = opt_get error2 "digest"
  /\ isRedirectError error1 = isRedirectError error2
  /\ getURLFromRedirectError error1 = getURLFromRedirectError error2
  /\ getRedirectTypeFromError error1 = getRedirectTypeFromError error2
  /\ getRedirectStatusCodeFromError error1
     = getRedirectStatusCodeFromError error2.
Proof.
  intros error1 error2. split; [reflexivity|].
  apply (readers_depend_on_digest_only error1 error2). reflexivity.
Defined.

(** ** Reading back what [getRedirectError] wrote *)

(** The URL read off a constructed signal is [null] or the first piece of
    the destination. *)
Lemma getURLFromRedirectError_constructed (getStore : option RequestStore)
    (url : string) (type : RedirectType) (permanent : option bool)
    (first : string) (rest : list string) :
  split_all ";" url = first :: rest ->
  let error := getRedirectError getStore url type permanent in
  getURLFromRedirectError error = Return VNull
  \/ getURLFromRedirectError error = Return (VString first).
Proof.
  intros Hs error. subst error.
  rewrite (getURLFromRedirectError_digest _ _
             (getRedirectError_digest getStore url type permanent)).
  unfold split. rewrite split_all_digest, Hs.
  destruct (valid_parts _); [by right|by left].
Qed.

(** X4.  [getURLFromRedirectError] returns the destination that
    [getRedirectError] was given exactly when the destination has no
    [;]. *)
Theorem destination_read_back_iff (getStore : option RequestStore)
    (url : string) (type : RedirectType) (permanent : option bool) :
  getURLFromRedirectError (getRedirectError getStore url type permanent)
  = Return (VString url)
  <-> includes url ";" = false.
Proof.
  split.
  - intros Hread.
    pose proof (split_all_nonempty ";" url) as Hne.
    destruct (split_all ";" url) as [|first rest] eqn:Hs; [done|].
    destruct (getURLFromRedirectError_constructed
                getStore url type permanent first rest Hs) as [Hnull|Hfirst].
    + rewrite Hnull in Hread. discriminate.
    + rewrite Hfirst in Hread. injection Hread as ->.
      by destruct (split_all_first ";" url url rest Hs).
  - intros Hurl.
    by destruct (round_trip_free getStore url type permanent Hurl)
      as (_ & ? & _).
Qed.

(** X5.  Whatever the destination, the URL read off the signal built for it
    is [null], or the destination up to its first [;]. *)
Theorem destination_read_is_cut (getStore : option RequestStore)
    (url : string) (type : RedirectType) (permanent : option bool) :
  let error := getRedirectError getStore url type permanent in
  getURLFromRedirectError error = Return VNull
  \/ exists read tail : string,
       getURLFromRedirectError error = Return (VString read)
       /\ url = read +:+ tail
       /\ tail_ok tail
       /\ includes read ";" = false.
Proof.
  intros error.
  pose proof (split_all_nonempty ";" url) as Hne.
  destruct (split_all ";" url) as [|first rest] eqn:Hs; [done|].
  destruct (getURLFromRedirectError_constructed
              getStore url type permanent first rest Hs) as [Hnull|Hfirst];
    [by left|right].
  destruct (split_all_first ";" url first rest Hs) as [Hfree Hurl].
  eexists first, _. split_and!; [done|exact Hurl| |done].
  destruct rest; constructor.
Qed.

(** X6.  The navigation mode is never misread: on the signal built for any
    destination, [getRedirectTypeFromError] returns the mode that
    [getRedirectError] was given, or throws [Not a redirect error]. *)
Theorem navigation_mode_never_misread (getStore : option RequestStore)
    (url : string) (type : RedirectType) (permanent : option bool) :
  let error := getRedirectError getStore url type permanent in
  getRedirectTypeFromError error = Return (VString (RedirectType_value type))
  \/ getRedirectTypeFromError error = Throw (new_Error "Not a redirect error").
Proof.
  intros error. subst error.
  rewrite (getRedirectTypeFromError_digest _ _
             (getRedirectError_digest getStore url type permanent)).
  unfold split. rewrite split_all_digest.
  destruct (valid_parts _); [by left|by right].
Qed.

(** X7.  A destination can take the place of the permanence: when the
    destination is a part without [;], then [;true] or [;false], alone or
    followed by [;] and more, the signal is recognised, the URL read is the
    first part, and the status is the one of the word inside the
    destination, whatever the permanence given to [getRedirectError]. *)
Theorem destination_overrides_permanence (getStore : option RequestStore)
    (read : string) (inside : bool) (tail : string) (type : RedirectType)
    (permanent : option bool) :
  includes read ";" = false ->
  tail_ok tail ->
  let error :=
    getRedirectError getStore
      (read +:+ ";" +:+ bool_to_string inside +:+ tail) type permanent in
  isRedirectError error = Return true
  /\ getURLFromRedirectError error = Return (VString read)
  /\ getRedirectTypeFromError error
     = Return (VString (RedirectType_value type))
  /\ getRedirectStatusCodeFromError error
     = Return (if inside then 308 else 307)%Z.
Proof.
  intros Hread Htail error.
  pose proof (getRedirectError_digest getStore
                (read +:+ ";" +:+ bool_to_string inside +:+ tail)
                type permanent) as Hd.
  fold error in Hd.
  assert (encoded type (read +:+ ";" +:+ bool_to_string inside +:+ tail)
            (default false permanent) ""
          = encoded type read inside
              (tail +:+ ";" +:+ bool_to_string (default false permanent)))
    as Henc.
  { unfold encoded. by rewrite !append_assoc, append_empty. }
  rewrite Henc in Hd.
  assert (tail_ok (tail +:+ ";" +:+ bool_to_string (default false permanent)))
    as Htail'.
  { destruct Htail as [|extra].
    - apply tail_more.
    - apply (tail_more (extra +:+ ";" +:+ bool_to_string (default false permanent))). }
  split_and!.
  - by eapply decode_recognized.
  - by eapply decode_url.
  - by eapply decode_type.
  - by eapply decode_status.
Qed.

(** The same at the destination [/a;true], built as not permanent. *)
Lemma destination_overrides_permanence_example :
  let error := getRedirectError None "/a;true" replace (Some false) in
  includes "/a" ";" = false
  /\ tail_ok ""
  /\ isRedirectError error = Return true
  /\ getURLFromRedirectError error = Return (VString "/a")
  /\ getRedirectTypeFromError error = Return (VString "replace")
  /\ getRedirectStatusCodeFromError error = Return 308%Z.
Proof.
  intros error. split; [reflexivity|]. split; [constructor|].
  apply (destination_overrides_permanence None "/a" true "" replace (Some false));
    [reflexivity|constructor].
Defined.

(** X8.  For a URL without [;], [redirect] and [permanentRedirect] throw a
    signal that is recognised and reads back as the URL, the navigation
    mode given ([replace] when none is) and 307 for [redirect], 308 for
    [permanentRedirect]. *)
Theorem throw_helpers_without_delimiter (getStore : option RequestStore)
    (url : string) (type : option RedirectType) :
  includes url ";" = false ->
  (exists thrown : value,
     redirect getStore url type = Throw thrown
     /\ isRedirectError thrown = Return true
     /\ getURLFromRedirectError thrown = Return (VString url)
     /\ getRedirectTypeFromError thrown
        = Return (VString (RedirectType_value (default replace type)))
     /\ getRedirectStatusCodeFromError thrown = Return 307%Z)
  /\ (exists thrown : value,
        permanentRedirect getStore url type = Throw thrown
        /\ isRedirectError thrown = Return true
        /\ getURLFromRedirectError thrown = Return (VString url)
        /\ getRedirectTypeFromError thrown
           = Return (VString (RedirectType_value (default replace type)))
        /\ getRedirectStatusCodeFromError thrown = Return 308%Z).
Proof.
  intros Hurl. split; eexists; (split; [reflexivity|]).
  - exact (round_trip_free getStore url (default replace type) (Some false)
             Hurl).
  - exact (round_trip_free getStore url (default replace type) (Some true)
             Hurl).
Qed.

(** The same for [redirect("/x")] and [permanentRedirect("/x")]. *)
Lemma throw_helpers_without_delimiter_example :
  includes "/x" ";" = false
  /\ (exists thrown : value,
        redirect None "/x" None = Throw thrown
        /\ isRedirectError thrown = Return true
        /\ getURLFromRedirectError thrown = Return (VString "/x")
        /\ getRedirectTypeFromError thrown = Return (VString "replace")
        /\ getRedirectStatusCodeFromError thrown = Return 307%Z)
  /\ (exists thrown : value,
        permanentRedirect None "/x" None = Throw thrown
        /\ isRedirectError thrown = Return true
        /\ getURLFromRedirectError thrown = Return (VString "/x")
        /\ getRedirectTypeFromError thrown = Return (VString "replace")
        /\ getRedirectStatusCodeFromError thrown = Return 308%Z).
Proof.
  split; [reflexivity|].
  apply (throw_helpers_without_delimiter None "/x" None). reflexivity.
Defined.

(** X9.  The digest itself loses nothing: two calls of [getRedirectError]
    that write the same digest were given the same navigation mode, the
    same destination (with or without [;]) and the same permanence. *)
Theorem digest_injective (getStore1 getStore2 : option RequestStore)
    (url1 url2 : string) (type1 type2 : RedirectType)
    (permanent1 permanent2 : option bool) :
  opt_get (getRedirectError getStore1 url1 type1 permanent1) "digest"
  = opt_get (getRedirectError getStore2 url2 type2 permanent2) "digest" ->
  type1 = type2
  /\ url1 = url2
  /\ default false permanent1 = default false permanent2.
Proof.
  rewrite !getRedirectError_digest. intros Hdigest.
  assert (encoded type1 url1 (default false permanent1) ""
          = encoded type2 url2 (default false permanent2) "") as Heq
    by congruence.
  apply (f_equal (split_all ";")) in Heq. rewrite !split_all_digest in Heq.
  injection Heq as Htype Hrest.
  apply app_inj_tail in Hrest as [Hpieces Hperm].
  split_and!.
  - by destruct type1, type2.
  - by rewrite <- (split_all_join ";" url1), Hpieces, split_all_join.
  - by destruct (default false permanent1), (default false permanent2).
Qed.

(** The same at two signals for [/a;b;c], built outside and inside a
    request. *)
Lemma digest_injective_example :
  let store := {| mutableCookies := VObject "ResponseCookies" ∅ |} in
  opt_get (getRedirectError None "/a;b;c" push None) "digest"
  = opt_get (getRedirectError (Some store) "/a;b;c" push (Some false)) "digest"
  /\ push = push
  /\ "/a;b;c" = "/a;b;c"
  /\ default false None = default false (Some false).
Proof.
  intros store. split; [reflexivity|].
  apply (digest_injective None (Some store) "/a;b;c" "/a;b;c" push push
           None (Some false)).
  reflexivity.
Defined.

(** X10.  A digest with fewer than three [;] is never recognised. *)
Theorem too_few_fields_rejected (error : value) (digest : string) :
  opt_get error "digest" = VString digest ->
  occurrences digest ";" < 3 ->
  isRedirectError error = Return false.
Proof.
  intros Hd Hfew. rewrite (isRedirectError_digest _ _ Hd). f_equal.
  assert (split digest ";" 4 !! 3%nat = None) as Hnone.
  { apply lookup_ge_None. unfold split.
    rewrite length_take, split_all_length. lia. }
  unfold valid_parts, element. rewrite Hnone. simpl.
  apply andb_false_r.
Qed.

(** The same at the digest [NEXT_REDIRECT;replace;/x]. *)
Lemma too_few_fields_rejected_example :
  let error :=
    set_prop (new_Error "boom") "digest" (VString "NEXT_REDIRECT;replace;/x") in
  opt_get error "digest" = VString "NEXT_REDIRECT;replace;/x"
  /\ occurrences "NEXT_REDIRECT;replace;/x" ";" < 3
  /\ isRedirectError error = Return false.
Proof.
  intros error. split; [reflexivity|]. split; [simpl; lia|].
  apply (too_few_fields_rejected error "NEXT_REDIRECT;replace;/x");
    [reflexivity|simpl; lia].
Defined.

(** X11.  The signals of [getRedirectError] that [isRedirectError] rejects
    are those whose destination has a second [;]-piece that is neither
    [true] nor [false]. *)
Theorem constructed_rejected_iff (getStore : option RequestStore)
    (url : string) (type : RedirectType) (permanent : option bool) :
  isRedirectError (getRedirectError getStore url type permanent)
  = Return false
  <-> exists (first second : string) (rest : list string),
        split_all ";" url = first :: second :: rest
        /\ second <> "true" /\ second <> "false".
Proof.
  rewrite isRedirectError_getRedirectError.
  pose proof (split_all_nonempty ";" url) as Hne.
  destruct (split_all ";" url) as [|first [|second rest]]; [done|..].
  - split; [discriminate|]. by intros (? & ? & ? & ? & _).
  - split.
    + intros Hrej. exists first, second, rest. split; [done|].
      assert (String.eqb second "true" || String.eqb second "false" = false)
        as [Ht Hf]%orb_false_iff by congruence.
      by apply String.eqb_neq in Ht, Hf.
    + intros (first' & second' & rest' & [= -> -> ->] & Ht & Hf).
      apply String.eqb_neq in Ht, Hf. by rewrite Ht, Hf.
Qed.
